(** * Verification of the uuid package (Version 4, Variant 1 UUIDs)

    Shallow embedding of [uuid.go]: the validation regular expression
    [uuidV4Regex] and Go's [MatchString], the parser
    [Ver4Var1FromString], the predicate [IsValid], the generator
    [Ver4Var1] with its helper [randInt], the panicking wrappers and the
    package-level [zero] value.

    Go strings are byte sequences; they are modelled as Rocq [string]s
    (sequences of 8-bit [ascii]).  Go's regexp engine decodes UTF-8, but
    every atom of [uuidV4Regex] is an ASCII character or an ASCII class,
    which no non-ASCII byte (nor any multi-byte rune) matches, so matching
    byte by byte gives the same verdict. *)

From Stdlib Require Import Strings.String Strings.Ascii Lists.List Bool ZArith Lia.
Import ListNotations.
Open Scope string_scope.

(** ** Regular expressions (the fragment used by [uuidV4Regex]) *)

Module Regexp.

Inductive regex : Type :=
| RBegin                               (* ^  : beginning of text *)
| REnd                                 (* $  : end of text (no m flag) *)
| RLit (c : ascii)                     (* a literal character *)
| RClass (rs : list (ascii * ascii))   (* [lo-hi lo-hi ...] *)
| RCat (r1 r2 : regex)                 (* r1 r2 *)
| RRepeat (r : regex) (n : nat).       (* r{n} *)

Definition in_class (rs : list (ascii * ascii)) (c : ascii) : bool :=
  existsb (fun '(lo, hi) => Ascii.leb lo c && Ascii.leb c hi) rs.

Fixpoint repeat_match (step : string -> list string) (n : nat) (s : string)
  : list string :=
  match n with
  | O => [s]
  | S n' => flat_map (repeat_match step n') (step s)
  end.

(** [mtch len r s]: every suffix of the input reachable after matching
    [r] from the suffix [s]; [len] is the length of the whole input, used
    by the [^] anchor. *)
Fixpoint mtch (len : nat) (r : regex) (s : string) : list string :=
  match r with
  | RBegin => if Nat.eqb (String.length s) len then [s] else []
  | REnd => match s with EmptyString => [s] | String _ _ => [] end
  | RLit c =>
      match s with
      | String c' t => if Ascii.eqb c c' then [t] else []
      | EmptyString => []
      end
  | RClass rs =>
      match s with
      | String c' t => if in_class rs c' then [t] else []
      | EmptyString => []
      end
  | RCat r1 r2 => flat_map (mtch len r2) (mtch len r1 s)
  | RRepeat r n => repeat_match (mtch len r) n s
  end.

Fixpoint suffixes (s : string) : list string :=
  match s with
  | EmptyString => [EmptyString]
  | String _ t => s :: suffixes t
  end.

(** Go's [Regexp.MatchString] method: is there a match anywhere in [s]? *)
Definition MatchString (r : regex) (s : string) : bool :=
  existsb (fun suf => match mtch (String.length s) r suf with [] => false | _ :: _ => true end) (suffixes s).

End Regexp.

Import Regexp.

(** ** The package [uuid] *)

(** [const variant1Chars = "89AB"] *)
Definition variant1Chars : string := "89AB".

(** [[0-9a-fA-F]] *)
Definition hex_class : regex :=
  RClass [("0", "9"); ("a", "f"); ("A", "F")]%char.

(** [[89ABab]] *)
Definition variant_class : regex :=
  RClass [("8", "8"); ("9", "9"); ("A", "A"); ("B", "B");
          ("a", "a"); ("b", "b")]%char.

(** [^[0-9a-fA-F]{8}-[0-9a-fA-F]{4}-4[0-9a-fA-F]{3}-[89ABab][0-9a-fA-F]{3}-[0-9a-fA-F]{12}$] *)
Definition uuidV4Regex : regex :=
  RCat RBegin
  (RCat (RRepeat hex_class 8)
  (RCat (RLit "-")
  (RCat (RRepeat hex_class 4)
  (RCat (RLit "-")
  (RCat (RLit "4")
  (RCat (RRepeat hex_class 3)
  (RCat (RLit "-")
  (RCat variant_class
  (RCat (RRepeat hex_class 3)
  (RCat (RLit "-")
  (RCat (RRepeat hex_class 12)
  REnd))))))))))).

(** A Go [error], represented by its message. *)
Definition error := string.

(** [type UUID string] *)
Definition UUID := string.

(** [func (u UUID) String() string] *)
Definition UUID_String (u : UUID) : string := u.

(** [func Ver4Var1FromString(s string) (UUID, error)] *)
Definition Ver4Var1FromString (s : string) : UUID * option error :=
  if negb (Nat.eqb (String.length s) 36) then
    ("", Some ("Ver4Var1FromString: expected string length of 36 for UUID: " ++ s))
  else if negb (MatchString uuidV4Regex s) then
    ("", Some ("Ver4Var1FromString: invalid UUID input: " ++ s))
  else (s, None).

(** [func IsValid(s string) bool] *)
Definition IsValid (s : string) : bool := MatchString uuidV4Regex s.

(** ** The layout, as the specification words it

    A second definition, written from the specification (section 4.2 and
    6), to be compared with the code's regular expression. *)
Module Layout.

Definition is_hex_digit (c : ascii) : bool :=
  existsb (Ascii.eqb c) (list_ascii_of_string "0123456789abcdefABCDEF").

Definition is_variant_nibble (c : ascii) : bool :=
  existsb (Ascii.eqb c) (list_ascii_of_string "89ABab").

Definition pos_ok (i : nat) (c : ascii) : bool :=
  if existsb (Nat.eqb i) [8; 13; 18; 23] then Ascii.eqb c "-"
  else if Nat.eqb i 14 then Ascii.eqb c "4"
  else if Nat.eqb i 19 then is_variant_nibble c
  else is_hex_digit c.

Definition layout_ok (s : string) : bool :=
  Nat.eqb (String.length s) 36 &&
  forallb (fun i => match String.get i s with
                    | Some c => pos_ok i c
                    | None => false
                    end) (seq 0 36).

End Layout.

Import Layout.

Example layout_zero : layout_ok "00000000-0000-4000-8000-000000000000" = true.
Proof. reflexivity. Qed.
Example isvalid_zero : IsValid "00000000-0000-4000-8000-000000000000" = true.
Proof. reflexivity. Qed.
Example isvalid_bad : IsValid "00000000-0000-5000-8000-000000000000" = false.
Proof. reflexivity. Qed.
Example isvalid_long : IsValid "00000000-0000-4000-8000-0000000000000" = false.
Proof. reflexivity. Qed.

(** ** Lemmas on the matcher *)

Fixpoint width (r : regex) : nat :=
  match r with
  | RBegin | REnd => 0
  | RLit _ | RClass _ => 1
  | RCat r1 r2 => width r1 + width r2
  | RRepeat r n => n * width r
  end.

Lemma repeat_match_width (step : string -> list string) (w : nat) :
  (forall s t, In t (step s) -> String.length t + w = String.length s) ->
  forall n s t, In t (repeat_match step n s) ->
                String.length t + n * w = String.length s.
Proof.
  intros Hstep n; induction n as [|n IH]; intros s t Hin; simpl in Hin.
  - destruct Hin as [<-|[]]; lia.
  - apply in_flat_map in Hin as (u & Hu & Ht).
    apply Hstep in Hu. apply IH in Ht. simpl. lia.
Qed.

Lemma mtch_width (len : nat) (r : regex) :
  forall s t, In t (mtch len r s) -> String.length t + width r = String.length s.
Proof.
  induction r; intros s t Hin; simpl in Hin |- *.
  - destruct (Nat.eqb (String.length s) len); [destruct Hin as [<-|[]]|destruct Hin]; lia.
  - destruct s; [destruct Hin as [<-|[]]; reflexivity|destruct Hin].
  - destruct s as [|c' s]; [destruct Hin|].
    destruct (Ascii.eqb c c'); [destruct Hin as [<-|[]]|destruct Hin]; simpl; lia.
  - destruct s as [|c' s]; [destruct Hin|].
    destruct (in_class rs c'); [destruct Hin as [<-|[]]|destruct Hin]; simpl; lia.
  - apply in_flat_map in Hin as (u & Hu & Ht).
    apply IHr1 in Hu. apply IHr2 in Ht. lia.
  - eapply repeat_match_width; eauto.
Qed.

Fixpoint ends_with_end (r : regex) : Prop :=
  match r with
  | REnd => True
  | RCat _ r2 => ends_with_end r2
  | _ => False
  end.

Lemma mtch_ends_with_end (len : nat) (r : regex) :
  ends_with_end r -> forall s t, In t (mtch len r s) -> t = EmptyString.
Proof.
  induction r; simpl; intros He s t Hin; try contradiction.
  - destruct s; [destruct Hin as [<-|[]]; reflexivity|destruct Hin].
  - apply in_flat_map in Hin as (u & _ & Ht). eauto.
Qed.

Lemma in_suffixes_length (s suf : string) :
  In suf (suffixes s) -> String.length suf <= String.length s.
Proof.
  revert suf; induction s as [|c s IH]; simpl; intros suf Hin.
  - destruct Hin as [<-|[]]; simpl; lia.
  - destruct Hin as [<-|Hin]; simpl; [lia|]. apply IH in Hin; lia.
Qed.

(** Whatever matches [uuidV4Regex] has exactly 36 bytes. *)
Lemma IsValid_length (s : string) :
  IsValid s = true -> String.length s = 36.
Proof.
  unfold IsValid, MatchString. intros H.
  apply existsb_exists in H as (suf & _ & Hm).
  destruct (mtch (String.length s) uuidV4Regex suf) as [|t ts] eqn:E;
    [discriminate|].
  assert (Hin : In t (mtch (String.length s) uuidV4Regex suf)) by (rewrite E; left; reflexivity).
  pose proof (mtch_width _ _ _ _ Hin) as Hw.
  pose proof (mtch_ends_with_end _ uuidV4Regex I _ _ Hin) as Ht.
  unfold uuidV4Regex in Hin. simpl mtch in Hin.
  apply in_flat_map in Hin as (u & Hu & _).
  destruct (Nat.eqb (String.length suf) (String.length s)) eqn:Eq; [|destruct Hu].
  apply Nat.eqb_eq in Eq. subst t. simpl in Hw. lia.
Qed.

Lemma in_class_hex (c : ascii) :
  Regexp.in_class [("0", "9"); ("a", "f"); ("A", "F")]%char c = is_hex_digit c.
Proof.
  destruct c as [[] [] [] [] [] [] [] []]; reflexivity.
Qed.

Lemma in_class_variant (c : ascii) :
  Regexp.in_class [("8", "8"); ("9", "9"); ("A", "A"); ("B", "B");
                   ("a", "a"); ("b", "b")]%char c = is_variant_nibble c.
Proof.
  destruct c as [[] [] [] [] [] [] [] []]; reflexivity.
Qed.

Ltac norm_atoms :=
  cbn - [Regexp.in_class is_hex_digit is_variant_nibble Ascii.eqb];
  rewrite ?in_class_hex, ?in_class_variant;
  repeat rewrite (Ascii.eqb_sym "-"%char _);
  repeat rewrite (Ascii.eqb_sym "4"%char _).

Lemma IsValid_layout_36 (s : string) :
  String.length s = 36 -> IsValid s = layout_ok s.
Proof.
  intros Hl.
  do 36 (destruct s as [|? s]; [simpl in Hl; lia|]).
  destruct s; [|simpl in Hl; lia].
  unfold IsValid, MatchString, layout_ok, uuidV4Regex, hex_class, variant_class, pos_ok.
  norm_atoms.
  repeat match goal with
         | |- context [if ?b then _ else _] =>
             lazymatch type of b with bool => destruct b; norm_atoms end
         | |- context [?b && _] => destruct b; norm_atoms
         end; reflexivity.
Qed.

(** [IsValid] accepts exactly the strings of the specified layout. *)
Lemma IsValid_layout (s : string) : IsValid s = layout_ok s.
Proof.
  destruct (Nat.eq_dec (String.length s) 36) as [H|H].
  - apply IsValid_layout_36; exact H.
  - unfold layout_ok. rewrite (proj2 (Nat.eqb_neq _ _) H). simpl.
    destruct (IsValid s) eqn:E; [|reflexivity].
    apply IsValid_length in E. contradiction.
Qed.

(** ** Go run-time behaviour used by the generator *)

(** Outcome of a Go computation: a value, or a panic. *)
Inductive res (A : Type) : Type :=
| Ok (a : A)
| Panic (msg : string).
Arguments Ok {A} a.
Arguments Panic {A} msg.

(** [s[i:]]: panics when [i > len(s)]. *)
Definition slice_from (s : string) (i : nat) : res string :=
  if Nat.leb i (String.length s) then Ok (substring i (String.length s - i) s)
  else Panic "runtime error: slice bounds out of range".

(** [s[i]] on a string: panics unless [0 <= i < len(s)]. *)
Definition index (s : string) (i : Z) : res ascii :=
  if (0 <=? i)%Z && (i <? Z.of_nat (String.length s))%Z then
    match String.get (Z.to_nat i) s with
    | Some b => Ok b
    | None => Panic "runtime error: index out of range"
    end
  else Panic "runtime error: index out of range".

(** [string(b)] for a byte [b]: the UTF-8 encoding of the rune [b]. *)
Definition string_of_byte (b : ascii) : string :=
  let n := N_of_ascii b in
  if (n <? 128)%N then String b EmptyString
  else String (ascii_of_N (N.lor 192 (N.shiftr n 6)))
         (String (ascii_of_N (N.lor 128 (N.land n 63))) EmptyString).

(** Go [int] (64 bits) arithmetic wraps around. *)
Definition wrap64 (z : Z) : Z := ((z + 2 ^ 63) mod 2 ^ 64 - 2 ^ 63)%Z.

(** [fmt.Sprintf("%s-%s-%s-%s-%s", a, b, c, d, e)] *)
Definition sprintf_uuid (a b c d e : string) : string :=
  a ++ "-" ++ b ++ "-" ++ c ++ "-" ++ d ++ "-" ++ e.

(** ** The generator

    The random sources are external: [randutil.Hex] (package
    github.com/aatuh/randutil) and [crypto/rand.Int].  They are
    parameters acting on an abstract world [W].  Every call is recorded
    in [draws] (true when the call returned an error), so that the
    claims can speak of the draws that were made. *)
Section Generator.

Variable W : Type.
(** [randutil.Hex(length int) (string, error)] *)
Variable randutil_Hex : nat -> W -> (string * option error) * W.
(** [rand.Int(rand.Reader, max)]: a uniform big integer in [0, max), or an error *)
Variable rand_Int : Z -> W -> (Z * option error) * W.

Record st : Type := mkst { world : W; draws : list bool }.

Definition M (A : Type) : Type := st -> res A * st.

Definition ret {A : Type} (a : A) : M A := fun s => (Ok a, s).

Definition bind {A B : Type} (m : M A) (k : A -> M B) : M B :=
  fun s => match m s with
           | (Ok a, s') => k a s'
           | (Panic p, s') => (Panic p, s')
           end.

Definition lift {A : Type} (r : res A) : M A := fun s => (r, s).

Definition panic {A : Type} (msg : string) : M A := fun s => (Panic msg, s).

Local Notation "x <- m ;; k" := (bind m (fun x => k))
  (at level 61, m at next level, right associativity).
Local Notation "' p <- m ;; k" := (bind m (fun x => match x with p => k end))
  (at level 61, p pattern, m at next level, right associativity).

Definition record_draw (failed : bool) (w' : W) (s : st) : st :=
  mkst w' (draws s ++ [failed]).

Definition hex (n : nat) : M (string * option error) :=
  fun s => let '(r, w') := randutil_Hex n (world s) in
           (Ok r, record_draw (match snd r with Some _ => true | None => false end) w' s).

Definition crypto_rand_Int (max : Z) : M (Z * option error) :=
  fun s => let '(r, w') := rand_Int max (world s) in
           (Ok r, record_draw (match snd r with Some _ => true | None => false end) w' s).

(** [func randInt(min, max int) (int, error)] *)
Definition randInt (min max : Z) : M (Z * option error) :=
  let diff := wrap64 (max - min + 1) in
  '(nBig, err) <- crypto_rand_Int diff ;;
  match err with
  | Some e => ret (0%Z, Some e)
  | None => ret (wrap64 (wrap64 nBig + min), None)
  end.

(** [if err != nil { return "", fmt.Errorf("Ver4Var1: %w", err) }] *)
Definition if_err (err : option error) (k : M (UUID * option error))
  : M (UUID * option error) :=
  match err with
  | Some e => ret ("", Some ("Ver4Var1: " ++ e))
  | None => k
  end.

(** [func Ver4Var1() (UUID, error)] *)
Definition Ver4Var1 : M (UUID * option error) :=
  '(part1, err) <- hex 8 ;;
  if_err err (
  '(part2, err) <- hex 4 ;;
  if_err err (
  '(part3Hex, err) <- hex 4 ;;
  if_err err (
  part3Tail <- lift (slice_from part3Hex 1) ;;
  let part3 := "4" ++ part3Tail in
  '(idx, err) <- randInt 0 (Z.of_nat (String.length variant1Chars) - 1) ;;
  if_err err (
  b <- lift (index variant1Chars idx) ;;
  let variantChar := string_of_byte b in
  '(part4Suffix, err) <- hex 4 ;;
  if_err err (
  part4Tail <- lift (slice_from part4Suffix 1) ;;
  let part4 := variantChar ++ part4Tail in
  '(part5, err) <- hex 12 ;;
  if_err err (
  let uuidStr := sprintf_uuid part1 part2 part3 part4 part5 in
  ret (uuidStr, None))))))).

(** [func MustVer4Var1() UUID] *)
Definition MustVer4Var1 : M UUID :=
  '(u, err) <- Ver4Var1 ;;
  match err with
  | Some e => panic ("MustVer4Var1: " ++ e)
  | None => ret u
  end.

End Generator.

(** [func MustVer4Var1FromString(s string) UUID] *)
Definition MustVer4Var1FromString (s : string) : res UUID :=
  match Ver4Var1FromString s with
  | (_, Some e) => Panic ("MustVer4Var1FromString: " ++ e)
  | (u, None) => Ok u
  end.

(** Package state after initialisation:
    [var zero = MustVer4Var1FromString("00000000-0000-4000-8000-000000000000")].
    A panic during initialisation aborts the program. *)
Record pkg : Type := mkpkg { zero : UUID }.

Definition init_pkg : res pkg :=
  match MustVer4Var1FromString "00000000-0000-4000-8000-000000000000" with
  | Ok u => Ok (mkpkg u)
  | Panic p => Panic p
  end.

(** [func Zero() UUID] *)
Definition Zero (p : pkg) : UUID := zero p.

(** ** A concrete random source, for evaluation *)
Module Stub.

Fixpoint rep_char (c : ascii) (n : nat) : string :=
  match n with O => EmptyString | S n' => String c (rep_char c n') end.

Definition hex_a (n : nat) (w : nat) : (string * option error) * nat :=
  ((rep_char "a" n, None), S w).

Definition int_two (max : Z) (w : nat) : (Z * option error) * nat :=
  ((2 mod max)%Z, None, S w).

Definition hex_empty_at (k : nat) (n : nat) (w : nat) : (string * option error) * nat :=
  if Nat.eqb w k then (("", None), S w) else ((rep_char "a" n, None), S w).

Definition hex_fail_at (k : nat) (n : nat) (w : nat) : (string * option error) * nat :=
  if Nat.eqb w k then (("", Some "crypto/rand: read failed"), S w)
  else ((rep_char "a" n, None), S w).

End Stub.

Example Ver4Var1_stub :
  Ver4Var1 nat Stub.hex_a Stub.int_two (mkst nat 0 [])
  = (Ok ("aaaaaaaa-aaaa-4aaa-Aaaa-aaaaaaaaaaaa", None),
     mkst nat 6 [false; false; false; false; false; false]).
Proof. reflexivity. Qed.

(** ** Lemmas on strings and the layout *)

(** Replace the byte at index [i] (no effect out of range). *)
Fixpoint set_at (i : nat) (c : ascii) (s : string) : string :=
  match s, i with
  | EmptyString, _ => EmptyString
  | String _ t, O => String c t
  | String d t, S i' => String d (set_at i' c t)
  end.

Lemma set_at_length i c s : String.length (set_at i c s) = String.length s.
Proof.
  revert i; induction s as [|d s IH]; intros [|i]; simpl; auto.
Qed.

Lemma get_set_at_eq i c s :
  i < String.length s -> String.get i (set_at i c s) = Some c.
Proof.
  revert i; induction s as [|d s IH]; intros [|i] H; simpl in *; try lia; auto.
  apply IH; lia.
Qed.

Lemma get_set_at_neq i j c s :
  i <> j -> String.get j (set_at i c s) = String.get j s.
Proof.
  revert i j; induction s as [|d s IH]; intros [|i] [|j] H; simpl; auto; try lia.
Qed.

Lemma layout_ok_iff (s : string) :
  layout_ok s = true <->
  String.length s = 36 /\
  (forall i, i < 36 -> exists c, String.get i s = Some c /\ pos_ok i c = true).
Proof.
  unfold layout_ok. rewrite andb_true_iff, Nat.eqb_eq, forallb_forall.
  split; intros [Hl H]; split; auto.
  - intros i Hi. specialize (H i). rewrite in_seq in H.
    destruct (String.get i s) as [c|]; [exists c; split; auto; apply H; lia|].
    discriminate (H ltac:(lia)).
  - intros i Hi. rewrite in_seq in Hi.
    destruct (H i ltac:(lia)) as (c & -> & Hc). exact Hc.
Qed.

(** Changing one position keeps the layout iff the new byte fits it. *)
Lemma layout_ok_set_at (s : string) (i : nat) (c : ascii) :
  layout_ok s = true -> i < 36 ->
  layout_ok (set_at i c s) = pos_ok i c.
Proof.
  intros Hs Hi. apply layout_ok_iff in Hs as [Hl Hs].
  destruct (pos_ok i c) eqn:Hc.
  - apply layout_ok_iff. rewrite set_at_length. split; auto.
    intros j Hj. destruct (Nat.eq_dec i j) as [<-|Hij].
    + exists c. rewrite get_set_at_eq by lia. auto.
    + rewrite get_set_at_neq by exact Hij. auto.
  - destruct (layout_ok (set_at i c s)) eqn:E; [|reflexivity].
    apply layout_ok_iff in E as [_ E].
    destruct (E i Hi) as (c' & Hg & Hc').
    rewrite get_set_at_eq in Hg by lia. injection Hg as ->. congruence.
Qed.

Lemma Ver4Var1FromString_layout (s : string) :
  Ver4Var1FromString s =
  if layout_ok s then (s, None)
  else if Nat.eqb (String.length s) 36
       then ("", Some ("Ver4Var1FromString: invalid UUID input: " ++ s))
       else ("", Some ("Ver4Var1FromString: expected string length of 36 for UUID: " ++ s)).
Proof.
  unfold Ver4Var1FromString. fold (IsValid s). rewrite IsValid_layout.
  destruct (Nat.eqb (String.length s) 36) eqn:Hl; simpl.
  - destruct (layout_ok s); reflexivity.
  - unfold layout_ok. rewrite Hl. reflexivity.
Qed.

(** ASCII case folding. *)
Definition lower (c : ascii) : ascii :=
  if Ascii.leb "A" c && Ascii.leb c "Z" then ascii_of_nat (nat_of_ascii c + 32)
  else c.

Fixpoint fold_case (s : string) : string :=
  match s with
  | EmptyString => EmptyString
  | String c t => String (lower c) (fold_case t)
  end.

Lemma pos_ok_lower (i : nat) (c : ascii) : pos_ok i (lower c) = pos_ok i c.
Proof.
  unfold pos_ok.
  destruct (existsb (Nat.eqb i) [8; 13; 18; 23]);
    [|destruct (Nat.eqb i 14); [|destruct (Nat.eqb i 19)]];
    destruct c as [[] [] [] [] [] [] [] []]; reflexivity.
Qed.

Lemma fold_case_length (s : string) : String.length (fold_case s) = String.length s.
Proof. induction s; simpl; auto. Qed.

Lemma get_fold_case (i : nat) (s : string) :
  String.get i (fold_case s) = option_map lower (String.get i s).
Proof.
  revert i; induction s as [|c s IH]; intros [|i]; simpl; auto.
Qed.

Lemma layout_ok_fold_case (s : string) : layout_ok (fold_case s) = layout_ok s.
Proof.
  unfold layout_ok. rewrite fold_case_length. f_equal.
  induction (seq 0 36) as [|i l IH]; simpl; [reflexivity|].
  rewrite get_fold_case, IH.
  destruct (String.get i s); simpl; [rewrite pos_ok_lower|]; reflexivity.
Qed.

(** ** Lemmas on the generator *)

(** The contract of [randutil.Hex]: on success, [n] hex digits. *)
Definition hex_str (n : nat) (s : string) : Prop :=
  String.length s = n /\ forallb is_hex_digit (list_ascii_of_string s) = true.

Definition hex_contract {W : Type}
  (Hx : nat -> W -> (string * option error) * W) : Prop :=
  forall n w s w', Hx n w = ((s, None), w') -> hex_str n s.

Ltac run_gen Hx RI H :=
  unfold Ver4Var1, randInt in H;
  unfold bind, hex, if_err, lift, crypto_rand_Int, ret in H;
  cbn in H;
  repeat (match type of H with
   | context [Hx ?n ?w] =>
       let E := fresh "E" in destruct (Hx n w) as [[? [?|]] ?] eqn:E
   | context [RI ?n ?w] =>
       let E := fresh "E" in destruct (RI n w) as [[? [?|]] ?] eqn:E
   | context [slice_from ?a ?b] =>
       let E := fresh "E" in destruct (slice_from a b) eqn:E
   | context [index ?a ?b] =>
       let E := fresh "E" in destruct (index a b) eqn:E
   end; cbn in H).

Lemma index_variant1Chars (z : Z) (b : ascii) :
  index variant1Chars z = Ok b -> In b ["8"; "9"; "A"; "B"]%char.
Proof.
  unfold index. destruct ((0 <=? z)%Z && (z <? Z.of_nat (String.length variant1Chars))%Z) eqn:E;
    [|discriminate].
  apply andb_true_iff in E as [E1 E2]. apply Z.leb_le in E1. apply Z.ltb_lt in E2.
  simpl in E2.
  assert (z = 0 \/ z = 1 \/ z = 2 \/ z = 3)%Z as Hz by lia.
  intros H. destruct Hz as [-> | [-> | [-> | ->]]]; injection H as <-; simpl; tauto.
Qed.

Lemma slice_from_hex4 (s t : string) :
  hex_str 4 s -> slice_from s 1 = Ok t -> hex_str 3 t /\ exists c, s = String c t.
Proof.
  intros [Hl Hh] Hs.
  do 4 (destruct s as [|? s]; [simpl in Hl; lia|]).
  destruct s; [|simpl in Hl; lia].
  injection Hs as <-. simpl in Hh |- *.
  rewrite !andb_true_iff in Hh. unfold hex_str. simpl.
  rewrite !andb_true_iff. intuition eauto.
Qed.

(** A successful output has the shape [p1-p2-4t3-vt4-p5]. *)
Lemma Ver4Var1_shape {W : Type} Hx RI (Hc : @hex_contract W Hx) s u s' :
  Ver4Var1 W Hx RI s = (Ok (u, None), s') ->
  exists p1 p2 t3 v t4 p5,
    u = sprintf_uuid p1 p2 (String "4" t3) (String v t4) p5 /\
    hex_str 8 p1 /\ hex_str 4 p2 /\ hex_str 3 t3 /\
    In v ["8"; "9"; "A"; "B"]%char /\ hex_str 3 t4 /\ hex_str 12 p5.
Proof.
  intros H. run_gen Hx RI H; try discriminate.
  injection H as <- _.
  repeat match goal with
         | E : Hx _ _ = _ |- _ => apply Hc in E
         end.
  match goal with E : index _ _ = Ok _ |- _ => apply index_variant1Chars in E end.
  repeat match goal with
         | E : slice_from _ 1 = Ok _, Hh : hex_str 4 _ |- _ =>
             apply (slice_from_hex4 _ _ Hh) in E as [? _]; clear Hh
         end.
  match goal with
  | Hv : In ?b _ |- _ =>
      assert (string_of_byte b = String b EmptyString) as ->
        by (destruct Hv as [<-|[<-|[<-|[<-|[]]]]]; reflexivity)
  end.
  do 6 eexists. split; [reflexivity|]. intuition eauto.
Qed.

Ltac explode_len Hl :=
  lazymatch type of Hl with
  | String.length ?s = O =>
      destruct s; [clear Hl | simpl in Hl; discriminate]
  | String.length ?s = S _ =>
      let t := fresh "t" in
      destruct s as [|? t]; [simpl in Hl; discriminate|];
      simpl in Hl; injection Hl as Hl; explode_len Hl
  end.

Ltac explode_hex H :=
  let Hl := fresh in let Hh := fresh in
  destruct H as [Hl Hh]; explode_len Hl;
  simpl in Hh; repeat rewrite andb_true_iff in Hh.

Lemma layout_ok_shape p1 p2 t3 v t4 p5 :
  hex_str 8 p1 -> hex_str 4 p2 -> hex_str 3 t3 ->
  In v ["8"; "9"; "A"; "B"]%char -> hex_str 3 t4 -> hex_str 12 p5 ->
  layout_ok (sprintf_uuid p1 p2 (String "4" t3) (String v t4) p5) = true.
Proof.
  intros H1 H2 H3 Hv H4 H5.
  explode_hex H1. explode_hex H2. explode_hex H3. explode_hex H4. explode_hex H5.
  repeat match goal with H : _ /\ _ |- _ => destruct H end.
  unfold layout_ok, pos_ok, sprintf_uuid. cbn - [is_hex_digit is_variant_nibble].
  repeat match goal with H : is_hex_digit _ = true |- _ => rewrite H; clear H end.
  destruct Hv as [<-|[<-|[<-|[<-|[]]]]]; reflexivity.
Qed.

Lemma rep_char_length (c : ascii) (n : nat) : String.length (Stub.rep_char c n) = n.
Proof. induction n; simpl; auto. Qed.

Lemma rep_char_hex (n : nat) :
  forallb is_hex_digit (list_ascii_of_string (Stub.rep_char "a" n)) = true.
Proof. induction n; simpl; auto. Qed.

Lemma hex_a_contract : hex_contract Stub.hex_a.
Proof.
  intros n w s w' H. injection H as <- _.
  split; [apply rep_char_length|apply rep_char_hex].
Qed.

Lemma int_two_range :
  forall n w v w', (0 < n)%Z -> Stub.int_two n w = ((v, None), w') -> (0 <= v < n)%Z.
Proof.
  intros n w v w' Hn H. injection H as <- _. apply Z.mod_pos_bound. exact Hn.
Qed.

(** Upper- and lower-case hex letters, for the case convention of an output. *)
Definition is_lower_hex_letter (c : ascii) : bool :=
  existsb (Ascii.eqb c) (list_ascii_of_string "abcdef").
Definition is_upper_hex_letter (c : ascii) : bool :=
  existsb (Ascii.eqb c) (list_ascii_of_string "ABCDEF").
Definition case_consistent (u : string) : bool :=
  negb (existsb is_lower_hex_letter (list_ascii_of_string u) &&
        existsb is_upper_hex_letter (list_ascii_of_string u)).

(** [Ver4Var1FromString] succeeds exactly on the strings [IsValid] accepts. *)
Lemma parse_ok_iff_IsValid (s : string) :
  (exists u, Ver4Var1FromString s = (u, None)) <-> IsValid s = true.
Proof.
  unfold Ver4Var1FromString. fold (IsValid s).
  split.
  - intros [u Hu].
    destruct (Nat.eqb (String.length s) 36); [|discriminate].
    destruct (IsValid s); [reflexivity|discriminate].
  - intros H. rewrite H, (IsValid_length s H). simpl. eauto.
Qed.

(** * Claims *)

(** ** C1
    [Ver4Var1FromString s] succeeds iff [s] has the layout: 36 bytes,
    hyphens at 8, 13, 18, 23, the literal [4] at 14, one of [8 9 A B]
    (any case) at 19 and hex digits elsewhere.  On success it returns [s]
    itself.  In particular, from a valid identifier, changing the version
    digit to [5], or the variant nibble to [C] or [0], is rejected, and
    changing the variant nibble to [9] is accepted. *)
Theorem Ver4Var1FromString_iff_layout (s : string) :
  ((exists u, Ver4Var1FromString s = (u, None)) <-> layout_ok s = true) /\
  (forall u, Ver4Var1FromString s = (u, None) -> u = s) /\
  (layout_ok s = true ->
     snd (Ver4Var1FromString (set_at 14 "5" s)) <> None /\
     snd (Ver4Var1FromString (set_at 19 "C" s)) <> None /\
     snd (Ver4Var1FromString (set_at 19 "0" s)) <> None /\
     Ver4Var1FromString (set_at 19 "9" s) = (set_at 19 "9" s, None)).
Proof.
  rewrite !Ver4Var1FromString_layout.
  split; [|split].
  - destruct (layout_ok s); [split; eauto|].
    split; [intros [u Hu]|discriminate].
    destruct (Nat.eqb (String.length s) 36); discriminate.
  - intros u. destruct (layout_ok s); [congruence|].
    destruct (Nat.eqb (String.length s) 36); discriminate.
  - intros Hs.
    rewrite !(layout_ok_set_at s) by (auto; lia). cbn.
    repeat split; destruct (Nat.eqb _ 36); discriminate.
Qed.

Lemma Ver4Var1FromString_iff_layout_witness :
  layout_ok "00000000-0000-4000-8000-000000000000" = true /\
  Ver4Var1FromString (set_at 19 "9" "00000000-0000-4000-8000-000000000000")
  = ("00000000-0000-4000-9000-000000000000", None).
Proof.
  split; [reflexivity|].
  apply (proj2 (proj2 (Ver4Var1FromString_iff_layout
                         "00000000-0000-4000-8000-000000000000")) eq_refl).
Defined.

(** ** C2
    Assuming [randutil.Hex] returns [n] hex digits on success, every
    identifier returned without error by [Ver4Var1] passes [IsValid], has
    36 bytes, the byte [4] at index 14 and one of [8 9 A B] (any case) at
    index 19. *)
Theorem Ver4Var1_layout {W : Type} Hx RI (Hc : @hex_contract W Hx) s u s' :
  Ver4Var1 W Hx RI s = (Ok (u, None), s') ->
  IsValid (UUID_String u) = true /\ String.length u = 36 /\
  String.get 14 u = Some "4"%char /\
  exists v, String.get 19 u = Some v /\ is_variant_nibble v = true.
Proof.
  intros H. apply Ver4Var1_shape in H as (p1 & p2 & t3 & v & t4 & p5 & -> & H); auto.
  unfold UUID_String. rewrite IsValid_layout.
  destruct H as (H1 & H2 & H3 & Hv & H4 & H5).
  pose proof (layout_ok_shape _ _ _ _ _ _ H1 H2 H3 Hv H4 H5) as Hok.
  split; [exact Hok|].
  apply layout_ok_iff in Hok as [Hl Hok]. split; [exact Hl|].
  destruct (Hok 14 ltac:(lia)) as (c14 & E14 & P14).
  destruct (Hok 19 ltac:(lia)) as (c19 & E19 & P19).
  cbn in P14, P19. apply Ascii.eqb_eq in P14. subst c14.
  split; [exact E14|]. exists c19. auto.
Qed.

Lemma Ver4Var1_layout_witness :
  IsValid "aaaaaaaa-aaaa-4aaa-Aaaa-aaaaaaaaaaaa" = true /\
  String.length "aaaaaaaa-aaaa-4aaa-Aaaa-aaaaaaaaaaaa" = 36.
Proof.
  destruct (Ver4Var1_layout Stub.hex_a Stub.int_two hex_a_contract
              (mkst nat 0 []) "aaaaaaaa-aaaa-4aaa-Aaaa-aaaaaaaaaaaa"
              (mkst nat 6 [false; false; false; false; false; false])
              eq_refl) as (H1 & H2 & _).
  split; [exact H1|exact H2].
Defined.

(** ** C3
    Round trip: every identifier returned without error by [Ver4Var1]
    (with [randutil.Hex] meeting its contract) is accepted by
    [Ver4Var1FromString], which returns it unchanged. *)
Theorem Ver4Var1_roundtrip {W : Type} Hx RI (Hc : @hex_contract W Hx) s u s' :
  Ver4Var1 W Hx RI s = (Ok (u, None), s') ->
  Ver4Var1FromString (UUID_String u) = (u, None).
Proof.
  intros H. apply Ver4Var1_shape in H as (p1 & p2 & t3 & v & t4 & p5 & -> & H); auto.
  destruct H as (H1 & H2 & H3 & Hv & H4 & H5).
  unfold UUID_String. rewrite Ver4Var1FromString_layout.
  rewrite (layout_ok_shape _ _ _ _ _ _ H1 H2 H3 Hv H4 H5). reflexivity.
Qed.

Lemma Ver4Var1_roundtrip_witness :
  Ver4Var1FromString "aaaaaaaa-aaaa-4aaa-Aaaa-aaaaaaaaaaaa"
  = ("aaaaaaaa-aaaa-4aaa-Aaaa-aaaaaaaaaaaa", None).
Proof.
  exact (Ver4Var1_roundtrip Stub.hex_a Stub.int_two hex_a_contract
           (mkst nat 0 []) "aaaaaaaa-aaaa-4aaa-Aaaa-aaaaaaaaaaaa"
           (mkst nat 6 [false; false; false; false; false; false]) eq_refl).
Defined.

(** ** C4
    [IsValid s] holds exactly when [Ver4Var1FromString s] succeeds, for
    every string [s]: the missing length test in [IsValid] makes no
    difference, since the anchored expression only matches 36 bytes. *)
Theorem IsValid_iff_Ver4Var1FromString (s : string) :
  IsValid s = true <-> exists u, Ver4Var1FromString s = (u, None).
Proof.
  unfold Ver4Var1FromString. fold (IsValid s).
  split.
  - intros H. rewrite H, (IsValid_length s H). simpl. eauto.
  - intros [u Hu].
    destruct (Nat.eqb (String.length s) 36); [|discriminate].
    destruct (IsValid s); [reflexivity|discriminate].
Qed.

Lemma IsValid_iff_Ver4Var1FromString_witness :
  exists u, Ver4Var1FromString "00000000-0000-4000-8000-000000000000" = (u, None).
Proof.
  apply (proj1 (IsValid_iff_Ver4Var1FromString
                  "00000000-0000-4000-8000-000000000000")).
  reflexivity.
Defined.

(** ** C5 (as stated: refuted)
    The claim: every successful output of [Ver4Var1] uses one case
    convention for all its hex letters.  With a [randutil.Hex] that
    meets its contract but returns lower-case digits, the upper-case
    variant nibble [A] from [variant1Chars] sits among lower-case
    letters. *)
Lemma Ver4Var1_case_mixed :
  ~ (forall (W : Type) Hx RI, @hex_contract W Hx ->
       forall s u s', Ver4Var1 W Hx RI s = (Ok (u, None), s') ->
       case_consistent u = true).
Proof.
  intros H.
  specialize (H nat Stub.hex_a Stub.int_two hex_a_contract (mkst nat 0 [])
                "aaaaaaaa-aaaa-4aaa-Aaaa-aaaaaaaaaaaa"
                (mkst nat 6 [false; false; false; false; false; false])
                Ver4Var1_stub).
  vm_compute in H. discriminate.
Qed.

(** ** C5 (amended)
    The variant nibble of every successful output of [Ver4Var1] is one
    of the upper-case characters [8 9 A B] of [variant1Chars], whatever
    case [randutil.Hex] uses for the other digits. *)
Theorem Ver4Var1_variant_upper {W : Type} Hx RI (Hc : @hex_contract W Hx) s u s' :
  Ver4Var1 W Hx RI s = (Ok (u, None), s') ->
  exists v, String.get 19 u = Some v /\ In v ["8"; "9"; "A"; "B"]%char.
Proof.
  intros H. apply Ver4Var1_shape in H as (p1 & p2 & t3 & v & t4 & p5 & -> & H); auto.
  destruct H as (H1 & H2 & H3 & Hv & _).
  explode_hex H1. explode_hex H2. explode_hex H3.
  exists v. split; [reflexivity|exact Hv].
Qed.

Lemma Ver4Var1_variant_upper_witness :
  exists v, String.get 19 "aaaaaaaa-aaaa-4aaa-Aaaa-aaaaaaaaaaaa" = Some v /\
            In v ["8"; "9"; "A"; "B"]%char.
Proof.
  exact (Ver4Var1_variant_upper Stub.hex_a Stub.int_two hex_a_contract
           (mkst nat 0 []) "aaaaaaaa-aaaa-4aaa-Aaaa-aaaaaaaaaaaa"
           (mkst nat 6 [false; false; false; false; false; false]) eq_refl).
Defined.

(** ** C6
    If a call to the random source fails, [Ver4Var1] returns an error
    with the empty UUID, and that failed call is the last one made: no
    retry and no fallback source.  Here [draws] lists the calls made, in
    order, true for a failed one. *)
Theorem Ver4Var1_draw_failure {W : Type} Hx RI (w : W) r s' :
  Ver4Var1 W Hx RI (mkst W w []) = (r, s') ->
  In true (draws W s') ->
  (exists e, r = Ok ("", Some e)) /\
  (exists k, draws W s' = (repeat false k ++ [true])%list).
Proof.
  intros H Hin. run_gen Hx RI H;
    injection H as <- <-; cbn in Hin |- *;
    try (exfalso; intuition discriminate);
    (split; [eexists; reflexivity|]);
    solve [ exists 0; reflexivity | exists 1; reflexivity | exists 2; reflexivity
          | exists 3; reflexivity | exists 4; reflexivity | exists 5; reflexivity ].
Qed.

Example Ver4Var1_fail_third :
  Ver4Var1 nat (Stub.hex_fail_at 2) Stub.int_two (mkst nat 0 [])
  = (Ok ("", Some "Ver4Var1: crypto/rand: read failed"),
     mkst nat 3 [false; false; true]).
Proof. reflexivity. Qed.

Lemma Ver4Var1_draw_failure_witness :
  In true [false; false; true] /\
  (exists e, Ok ("", Some "Ver4Var1: crypto/rand: read failed") = Ok ("", Some e)) /\
  (exists k, [false; false; true] = (repeat false k ++ [true])%list).
Proof.
  split; [simpl; tauto|].
  exact (Ver4Var1_draw_failure (Stub.hex_fail_at 2) Stub.int_two 0
           (Ok ("", Some "Ver4Var1: crypto/rand: read failed"))
           (mkst nat 3 [false; false; true]) Ver4Var1_fail_third
           ltac:(simpl; tauto)).
Defined.

(** ** C7
    The [Must] variants are thin wrappers: [MustVer4Var1FromString s]
    panics exactly when [Ver4Var1FromString s] reports an error and
    otherwise returns the same UUID; [MustVer4Var1] turns an error of
    [Ver4Var1] into a panic, returns its UUID otherwise, and draws from
    the random source exactly as [Ver4Var1] does. *)
Theorem Must_wrappers :
  (forall s, (exists p, MustVer4Var1FromString s = Panic p) <->
             (exists e, snd (Ver4Var1FromString s) = Some e)) /\
  (forall s u, MustVer4Var1FromString s = Ok u <-> Ver4Var1FromString s = (u, None)) /\
  (forall (W : Type) Hx RI (s : st W),
     MustVer4Var1 W Hx RI s =
     match Ver4Var1 W Hx RI s with
     | (Ok (u, None), s') => (Ok u, s')
     | (Ok (_, Some e), s') => (Panic ("MustVer4Var1: " ++ e), s')
     | (Panic p, s') => (Panic p, s')
     end).
Proof.
  split; [|split].
  - intros s. unfold MustVer4Var1FromString.
    destruct (Ver4Var1FromString s) as [u [e|]]; simpl; split.
    + eauto.
    + eauto.
    + intros [p Hp]; discriminate.
    + intros [e He]; discriminate.
  - intros s u. unfold MustVer4Var1FromString.
    destruct (Ver4Var1FromString s) as [u' [e|]]; split; intros H; congruence.
  - intros W Hx RI s. unfold MustVer4Var1, bind at 1.
    destruct (Ver4Var1 W Hx RI s) as [[[u [e|]]|p] s']; reflexivity.
Qed.

Lemma Must_wrappers_witness :
  MustVer4Var1FromString "00000000-0000-4000-8000-000000000000"
  = Ok "00000000-0000-4000-8000-000000000000".
Proof.
  apply (proj2 (proj1 (proj2 Must_wrappers)
           "00000000-0000-4000-8000-000000000000"
           "00000000-0000-4000-8000-000000000000")).
  reflexivity.
Defined.

(** ** C8
    Package initialisation succeeds; [Zero()] then returns the UUID
    "00000000-0000-4000-8000-000000000000", which [IsValid] accepts.
    [Zero] reads the package value [zero], which nothing assigns after
    initialisation, so every call returns that same constant. *)
Theorem Zero_value :
  exists p, init_pkg = Ok p /\
            UUID_String (Zero p) = "00000000-0000-4000-8000-000000000000" /\
            IsValid (UUID_String (Zero p)) = true.
Proof.
  eexists. split; [reflexivity|]. split; reflexivity.
Qed.

(** ** C9
    If [crypto/rand.Int] returns a value in [[0, n)] for a positive [n],
    a successful [randInt(0, len(variant1Chars)-1)] returns an index in
    [[0, 3]], and [variant1Chars[idx]] is in bounds: it yields one of
    [8 9 A B] and does not panic. *)
Theorem randInt_variant_index {W : Type} RI
  (HRI : forall n w v w', (0 < n)%Z -> RI n w = ((v, None), w') -> (0 <= v < n)%Z)
  (s : st W) idx s' :
  randInt W RI 0 (Z.of_nat (String.length variant1Chars) - 1) s = (Ok (idx, None), s') ->
  (0 <= idx <= 3)%Z /\
  exists b, index variant1Chars idx = Ok b /\ In b ["8"; "9"; "A"; "B"]%char.
Proof.
  unfold randInt, bind, crypto_rand_Int, ret. cbn.
  destruct (RI 4%Z (world W s)) as [[v [e|]] w'] eqn:E; cbn; intros H;
    inversion H; subst; clear H.
  apply HRI in E; [|lia].
  assert (Hw : wrap64 (wrap64 v + 0) = v).
  { unfold wrap64. rewrite !Z.add_0_r.
    rewrite (Z.mod_small (v + 2 ^ 63)) by lia.
    rewrite Z.sub_add.
    rewrite (Z.mod_small (v + 2 ^ 63)) by lia. lia. }
  rewrite Hw. split; [lia|].
  assert (v = 0 \/ v = 1 \/ v = 2 \/ v = 3)%Z as Hv by lia.
  destruct Hv as [-> | [-> | [-> | ->]]]; eexists; split; try reflexivity; simpl; tauto.
Qed.

Lemma randInt_variant_index_witness :
  (0 <= 2 <= 3)%Z /\
  exists b, index variant1Chars 2 = Ok b /\ In b ["8"; "9"; "A"; "B"]%char.
Proof.
  exact (randInt_variant_index Stub.int_two int_two_range (mkst nat 0 []) 2%Z
           (mkst nat 1 [false]) eq_refl).
Defined.

(** ** C10
    Validation folds case byte by byte: two strings that agree up to the
    case of each byte are both accepted or both rejected, by [IsValid]
    and by [Ver4Var1FromString]; a mixed-case identifier with a
    lower-case [b] as variant nibble is accepted. *)
Theorem case_insensitive_per_byte :
  IsValid "6F1a0B1c-8d7E-4a2B-bC9d-1e2F3a4B5c6D" = true /\
  Ver4Var1FromString "6F1a0B1c-8d7E-4a2B-bC9d-1e2F3a4B5c6D"
  = ("6F1a0B1c-8d7E-4a2B-bC9d-1e2F3a4B5c6D", None) /\
  (forall s t, fold_case s = fold_case t ->
     IsValid s = IsValid t /\
     ((exists u, Ver4Var1FromString s = (u, None)) <->
      (exists u, Ver4Var1FromString t = (u, None)))).
Proof.
  split; [reflexivity|]. split; [reflexivity|].
  intros s t Hst.
  assert (Hv : IsValid s = IsValid t).
  { rewrite !IsValid_layout, <- (layout_ok_fold_case s), <- (layout_ok_fold_case t), Hst.
    reflexivity. }
  split; [exact Hv|].
  rewrite !parse_ok_iff_IsValid, Hv. reflexivity.
Qed.

Lemma case_insensitive_per_byte_witness :
  IsValid "00000000-0000-4000-b000-00000000000a"
  = IsValid "00000000-0000-4000-B000-00000000000A".
Proof.
  apply (proj2 (proj2 case_insensitive_per_byte)
           "00000000-0000-4000-b000-00000000000a"
           "00000000-0000-4000-B000-00000000000A"); reflexivity.
Defined.

(** * Further properties of the package *)

Lemma string_length_append (s t : string) :
  String.length (s ++ t) = String.length s + String.length t.
Proof. induction s; simpl; auto. Qed.

Lemma wrap64_small (z : Z) : (- 2 ^ 63 <= z < 2 ^ 63)%Z -> wrap64 z = z.
Proof.
  intros H. unfold wrap64. rewrite Z.mod_small by lia. lia.
Qed.

Lemma slice_from_ok (p : string) :
  1 <= String.length p -> exists t, slice_from p 1 = Ok t.
Proof.
  intros H. unfold slice_from.
  destruct (Nat.leb 1 (String.length p)) eqn:E; [eauto|].
  apply Nat.leb_gt in E. lia.
Qed.

Lemma index_wrap_ok (z : Z) :
  (0 <= z < 4)%Z -> exists b, index variant1Chars (wrap64 (wrap64 z + 0)) = Ok b.
Proof.
  intros Hz. rewrite Z.add_0_r, (wrap64_small z), (wrap64_small z) by lia.
  assert (z = 0 \/ z = 1 \/ z = 2 \/ z = 3)%Z as Hv by lia.
  destruct Hv as [-> | [-> | [-> | ->]]]; eexists; reflexivity.
Qed.

(** ** X1
    [Ver4Var1FromString] fails with the empty UUID.  A string whose length
    is not 36 gets the length message; a 36-byte string off the layout gets
    the "invalid UUID input" message.  Both messages end with the input. *)
Theorem Ver4Var1FromString_error_cases (s : string) (u : UUID) (e : error) :
  Ver4Var1FromString s = (u, Some e) ->
  u = "" /\
  ((String.length s <> 36 /\
    e = "Ver4Var1FromString: expected string length of 36 for UUID: " ++ s) \/
   (String.length s = 36 /\ layout_ok s = false /\
    e = "Ver4Var1FromString: invalid UUID input: " ++ s)).
Proof.
  rewrite Ver4Var1FromString_layout.
  destruct (layout_ok s) eqn:Hl; [discriminate|].
  destruct (Nat.eqb (String.length s) 36) eqn:E; intros H; injection H as <- <-;
    split; auto.
  - right. apply Nat.eqb_eq in E. auto.
  - left. apply Nat.eqb_neq in E. auto.
Qed.

Lemma Ver4Var1FromString_error_cases_witness :
  "" = "" /\
  ((String.length "not-a-uuid" <> 36 /\
    "Ver4Var1FromString: expected string length of 36 for UUID: not-a-uuid"
    = "Ver4Var1FromString: expected string length of 36 for UUID: " ++ "not-a-uuid") \/
   (String.length "not-a-uuid" = 36 /\ layout_ok "not-a-uuid" = false /\
    "Ver4Var1FromString: expected string length of 36 for UUID: not-a-uuid"
    = "Ver4Var1FromString: invalid UUID input: " ++ "not-a-uuid")).
Proof.
  apply (Ver4Var1FromString_error_cases "not-a-uuid").
  reflexivity.
Defined.

(** ** X2
    [MustVer4Var1FromString s] returns [s] itself when [IsValid s], and
    otherwise panics with a message that starts with
    "MustVer4Var1FromString: Ver4Var1FromString: " and ends with [s]. *)
Theorem MustVer4Var1FromString_cases (s : string) :
  (forall u, MustVer4Var1FromString s = Ok u -> u = s /\ IsValid s = true) /\
  (forall p, MustVer4Var1FromString s = Panic p ->
     IsValid s = false /\
     exists m, p = "MustVer4Var1FromString: Ver4Var1FromString: " ++ m ++ s).
Proof.
  unfold MustVer4Var1FromString. rewrite Ver4Var1FromString_layout, IsValid_layout.
  destruct (layout_ok s).
  - split; [intros u H; injection H as <-; auto|discriminate].
  - split; [destruct (Nat.eqb _ 36); discriminate|].
    intros p H. split; [reflexivity|].
    destruct (Nat.eqb _ 36); injection H as <-;
      [exists "invalid UUID input: "|exists "expected string length of 36 for UUID: "];
      reflexivity.
Qed.

Lemma MustVer4Var1FromString_cases_witness :
  IsValid "not-a-uuid" = false /\
  exists m, "MustVer4Var1FromString: Ver4Var1FromString: expected string length of 36 for UUID: not-a-uuid"
            = "MustVer4Var1FromString: Ver4Var1FromString: " ++ m ++ "not-a-uuid".
Proof.
  apply (proj2 (MustVer4Var1FromString_cases "not-a-uuid")).
  reflexivity.
Defined.

(** ** X3
    [IsValid] is anchored at both ends: appending or prepending any
    non-empty string (a trailing newline included) to a valid UUID gives a
    string [IsValid] rejects. *)
Theorem IsValid_anchored (s t : string) :
  IsValid s = true -> t <> EmptyString ->
  IsValid (s ++ t) = false /\ IsValid (t ++ s) = false.
Proof.
  intros Hs Ht. apply IsValid_length in Hs.
  assert (Hlt : String.length t <> 0) by (destruct t; simpl; [congruence|lia]).
  split; destruct (IsValid _) eqn:E; auto; apply IsValid_length in E;
    rewrite string_length_append in E; lia.
Qed.

Lemma IsValid_anchored_witness :
  IsValid ("00000000-0000-4000-8000-000000000000" ++ String "010" "") = false /\
  IsValid (String "010" "" ++ "00000000-0000-4000-8000-000000000000") = false.
Proof.
  apply IsValid_anchored; [reflexivity|discriminate].
Defined.

(** ** X4
    [randInt(min, max)]: when [crypto/rand.Int] returns a value in
    [[0, n)] and the range fits Go's [int], a successful call returns a
    value in [[min, max]]; a failed call returns 0 with the error of
    [rand.Int] unchanged. *)
Theorem randInt_range {W : Type} RI
  (HRI : forall n w v w', (0 < n)%Z -> RI n w = ((v, None), w') -> (0 <= v < n)%Z)
  (min max : Z)
  (Hb : (- 2 ^ 63 <= min <= max /\ max < 2 ^ 63)%Z)
  (Hd : (max - min + 1 < 2 ^ 63)%Z)
  (s : st W) (v : Z) (e : error) (s' : st W) :
  (randInt W RI min max s = (Ok (v, None), s') -> (min <= v <= max)%Z) /\
  (randInt W RI min max s = (Ok (v, Some e), s') ->
     v = 0%Z /\ exists n w', RI (max - min + 1)%Z (world W s) = ((n, Some e), w')).
Proof.
  unfold randInt, bind, crypto_rand_Int, ret.
  rewrite (wrap64_small (max - min + 1)%Z) by lia.
  destruct (RI (max - min + 1)%Z (world W s)) as [[n [e'|]] w'] eqn:E; simpl.
  - split; intros H; inversion H; subst.
    split; [reflexivity|]. exists n, w'. reflexivity.
  - split; intros H; inversion H; subst; clear H.
    apply HRI in E; [|lia].
    rewrite (wrap64_small n) by lia. rewrite wrap64_small by lia. lia.
Qed.

Lemma randInt_range_witness : (10 <= 12 <= 13)%Z.
Proof.
  apply (proj1 (randInt_range Stub.int_two int_two_range 10 13
                  ltac:(lia) ltac:(lia) (mkst nat 0 []) 12 ""
                  (mkst nat 1 [false]))).
  reflexivity.
Defined.

(** ** X5
    [Ver4Var1] never panics when [randutil.Hex] returns [n] hex digits
    and [crypto/rand.Int] returns a value in [[0, n)] on success: the
    slices [part3Hex[1:]], [part4Suffix[1:]] and the index
    [variant1Chars[idx]] stay in bounds. *)
Theorem Ver4Var1_no_panic {W : Type} Hx RI (Hc : @hex_contract W Hx)
  (HRI : forall n w v w', (0 < n)%Z -> RI n w = ((v, None), w') -> (0 <= v < n)%Z)
  (s : st W) :
  exists r s', Ver4Var1 W Hx RI s = (Ok r, s').
Proof.
  destruct (Ver4Var1 W Hx RI s) as [[r|m] s'] eqn:H; [eauto|exfalso].
  run_gen Hx RI H; try discriminate;
    repeat match goal with E : Hx _ _ = _ |- _ => apply Hc in E end.
  all: match goal with
       | E : slice_from ?p 1 = Panic _, Hh : hex_str 4 ?p |- _ =>
           destruct Hh as [Hl _];
           destruct (slice_from_ok p ltac:(lia)) as [t Ht]; congruence
       | E : index _ _ = Panic _, ER : _ _ _ = (_, None, _) |- _ =>
           apply HRI in ER; [|lia];
           destruct (index_wrap_ok _ ER) as [b Hb]; congruence
       end.
Qed.

Lemma Ver4Var1_no_panic_witness :
  exists r s', Ver4Var1 nat Stub.hex_a Stub.int_two (mkst nat 0 []) = (Ok r, s').
Proof.
  exact (Ver4Var1_no_panic Stub.hex_a Stub.int_two hex_a_contract int_two_range
           (mkst nat 0 [])).
Defined.

(** ** X6
    [Ver4Var1] trusts [randutil.Hex] for the length of its result: if the
    third call (for [part3Hex]) returns an empty string without error,
    [part3Hex[1:]] is out of range and [Ver4Var1] panics. *)
Theorem Ver4Var1_panics_on_empty_hex {W : Type} Hx RI (s : st W) p1 p2 w1 w2 w3 :
  Hx 8 (world W s) = ((p1, None), w1) ->
  Hx 4 w1 = ((p2, None), w2) ->
  Hx 4 w2 = (("", None), w3) ->
  fst (Ver4Var1 W Hx RI s) = Panic "runtime error: slice bounds out of range".
Proof.
  intros H1 H2 H3.
  unfold Ver4Var1, randInt. unfold bind, hex, if_err, lift, crypto_rand_Int, ret.
  cbn. rewrite H1. cbn. rewrite H2. cbn. rewrite H3. reflexivity.
Qed.

Lemma Ver4Var1_panics_on_empty_hex_witness :
  fst (Ver4Var1 nat (Stub.hex_empty_at 2) Stub.int_two (mkst nat 0 []))
  = Panic "runtime error: slice bounds out of range".
Proof.
  apply (Ver4Var1_panics_on_empty_hex (Stub.hex_empty_at 2) Stub.int_two
           (mkst nat 0 []) "aaaaaaaa" "aaaa" 1 2 3); reflexivity.
Defined.





(** ** X9
    With [randutil.Hex] meeting its contract, every UUID [MustVer4Var1]
    returns passes [IsValid] and is accepted unchanged by
    [Ver4Var1FromString]. *)
Theorem MustVer4Var1_valid {W : Type} Hx RI (Hc : @hex_contract W Hx) (s : st W) u s' :
  MustVer4Var1 W Hx RI s = (Ok u, s') ->
  IsValid u = true /\ Ver4Var1FromString u = (u, None).
Proof.
  unfold MustVer4Var1, bind at 1.
  destruct (Ver4Var1 W Hx RI s) as [[[u' [e|]]|p] s''] eqn:H; cbn; intros Hm;
    try discriminate.
  injection Hm as <- _.
  apply Ver4Var1_shape in H as (p1 & p2 & t3 & v & t4 & p5 & -> & H); auto.
  destruct H as (H1 & H2 & H3 & Hv & H4 & H5).
  pose proof (layout_ok_shape _ _ _ _ _ _ H1 H2 H3 Hv H4 H5) as Hok.
  rewrite IsValid_layout, Ver4Var1FromString_layout, Hok. auto.
Qed.

Lemma MustVer4Var1_valid_witness :
  IsValid "aaaaaaaa-aaaa-4aaa-Aaaa-aaaaaaaaaaaa" = true /\
  Ver4Var1FromString "aaaaaaaa-aaaa-4aaa-Aaaa-aaaaaaaaaaaa"
  = ("aaaaaaaa-aaaa-4aaa-Aaaa-aaaaaaaaaaaa", None).
Proof.
  exact (MustVer4Var1_valid Stub.hex_a Stub.int_two hex_a_contract (mkst nat 0 [])
           "aaaaaaaa-aaaa-4aaa-Aaaa-aaaaaaaaaaaa"
           (mkst nat 6 [false; false; false; false; false; false]) eq_refl).
Defined.
